(** * The [prefer-at] rule of the ESLint plugin

    A shallow embedding of
    [packages/eslint-plugin/src/rules/prefer-at.ts] and the properties of
    its detection-and-rewrite engine.

    The rule visits every member access whose property is a subtraction and
    reports [X[X.length - N]], proposing [X.at(-N)] instead.  It reads three
    things from its host: the syntax tree, the source text and the types the
    checker resolves for nodes.  All three are data here; the rule itself is
    a function from them to the list of reports it hands to the host. *)

From Stdlib Require Import String Ascii List Bool Arith NArith Lia Permutation.
Import ListNotations.

Local Open Scope string_scope.
Local Open Scope list_scope.

(** ** Syntax tree *)

(** [node.range]: the start and end offsets of a node in the source text.
    Offsets produced by the parser are never negative. *)
Definition Range : Type := (nat * nat)%type.

(** The node kinds the rule distinguishes, with the other kinds of the tree
    kept under their own tag. *)
Inductive AST_NODE_TYPES : Type :=
| T_Identifier
| T_Literal
| T_MemberExpression
| T_CallExpression
| T_BinaryExpression
| T_UnaryExpression
| T_Other (tag : string).

(** [TSESTree.Node], with the fields the rule reads. *)
#[warnings="-register-all"] Inductive Node : Type :=
| Identifier (range : Range) (name : string)
| Literal (range : Range) (raw : string)
| MemberExpression (range : Range) (object property : Node)
    (computed optional : bool)
| CallExpression (range : Range) (callee : Node) (arguments : list Node)
| BinaryExpression (range : Range) (operator : string) (left right : Node)
| UnaryExpression (range : Range) (operator : string) (argument : Node)
| OtherNode (range : Range) (tag : string) (children : list Node).

Definition node_type (node : Node) : AST_NODE_TYPES :=
  match node with
  | Identifier _ _ => T_Identifier
  | Literal _ _ => T_Literal
  | MemberExpression _ _ _ _ _ => T_MemberExpression
  | CallExpression _ _ _ => T_CallExpression
  | BinaryExpression _ _ _ _ => T_BinaryExpression
  | UnaryExpression _ _ _ => T_UnaryExpression
  | OtherNode _ tag _ => T_Other tag
  end.

Definition node_range (node : Node) : Range :=
  match node with
  | Identifier r _ | Literal r _ | MemberExpression r _ _ _ _
  | CallExpression r _ _ | BinaryExpression r _ _ _
  | UnaryExpression r _ _ | OtherNode r _ _ => r
  end.

Definition isCallExpression (node : Node) : bool :=
  match node with
  | CallExpression _ _ _ => true
  | _ => false
  end.

(** ** The type checker's answers *)

Module ts.

(** [ts.Symbol]: the rule reads its [name] only. *)
Record Symbol : Type := mkSymbol { name : string }.

(** [ts.Type], as the three queries the rule makes of it. *)
Record Type_ : Type := mkType {
  getSymbol : option Symbol;
  getFlags : N;
  getProperty : string -> option Symbol
}.

End ts.

Module tsutils.

(** [isTypeFlagSet(type, flag)] is [(type.flags & flag) !== 0]. *)
Definition isTypeFlagSet (type : ts.Type_) (flag : N) : bool :=
  negb (N.eqb (N.land (ts.getFlags type) flag) 0).

End tsutils.

(** ** What the rule gives back to the host *)

(** The result of [fixer.replaceText]: a span and the text to put there. *)
Record Fix : Type := mkFix {
  fix_range : Range;
  fix_text : string
}.

(** The descriptor passed to [context.report].  The rule passes one [fix]
    and no [suggest] entry. *)
Record ReportDescriptor : Type := mkReport {
  messageId : string;
  data : list (string * string);
  report_node : Node;
  fix_ : Fix
}.

(** [fixer.replaceText(nodeOrToken, text)] replaces the range of the node. *)
Definition replaceText (node : Node) (text : string) : Fix :=
  {| fix_range := node_range node; fix_text := text |}.

(** ** Rule meta data *)

Record Options : Type := mkOptions { ignoreFunctions : bool }.

Record RuleMeta : Type := mkMeta {
  meta_type : string;
  fixable : option string;
  messages : list (string * string)
}.

Definition meta : RuleMeta :=
  {| meta_type := "suggestion";
     fixable := Some "code";
     messages :=
       [("preferAt",
         "Expected a `{{name}}.at(-1)` instead of `{{name}}[{{name}}.length - 1]`.")]
  |}.

Definition defaultOptions : Options := {| ignoreFunctions := false |}.

(** [String.prototype.slice(start, end)] for offsets that are not negative:
    both ends are clamped to the length, and the result is empty when the
    end does not lie after the start. *)
Definition slice (text : string) (start_ end_ : nat) : string :=
  let len := String.length text in
  let from := Nat.min start_ len in
  let to := Nat.min end_ len in
  substring from (to - from) text.

(** ** The body of [create] *)

Section create.

(** [ts.TypeFlags.String] and [ts.TypeFlags.NumberLike], constants of the
    TypeScript compiler. *)
Variable TypeFlags_String : N.
Variable TypeFlags_NumberLike : N.

(** The second argument of [create]. *)
Variable options : Options.

(** [context.getSourceCode().text]. *)
Variable sourceCode_text : string.

(** [checker.getTypeAtLocation(esTreeNodeToTSNodeMap.get(node))]: the
    checker's answer for a node of the tree. *)
Variable getTypeAtLocation : Node -> ts.Type_.

Fixpoint getName (node : Node) : option string :=
  match node with
  | Identifier _ name => Some name
  | MemberExpression _ _ property _ _ => getName property
  | _ => None
  end.

Definition getFullName (node : Node) : string :=
  slice sourceCode_text (fst (node_range node)) (snd (node_range node)).

(** [hasCallExpression] takes a member expression; on any other node it
    has no [object] to look at. *)
Fixpoint hasCallExpression (node : Node) : bool :=
  match node with
  | MemberExpression _ object _ _ _ =>
      match object with
      | CallExpression _ _ _ => true
      | MemberExpression _ _ _ _ _ => hasCallExpression object
      | _ => false
      end
  | _ => false
  end.

Definition SupportedObject : Type := ts.Type_ -> bool.

(** [type.getSymbol()?.name === name] *)
Definition checkObjectName (name : string) : SupportedObject :=
  fun type =>
    match ts.getSymbol type with
    | Some symbol => String.eqb (ts.name symbol) name
    | None => false
    end.

(** [type.getFlags() === flags] *)
Definition checkObjectType (flags : N) : SupportedObject :=
  fun type => N.eqb (ts.getFlags type) flags.

Definition supporterObjects : list SupportedObject :=
  [ checkObjectName "Array";
    checkObjectName "Int8Array";
    checkObjectName "Uint8Array";
    checkObjectName "Uint8ClampedArray";
    checkObjectName "Int16Array";
    checkObjectName "Uint16Array";
    checkObjectName "Int32Array";
    checkObjectName "Float32Array";
    checkObjectName "Uint32Array";
    checkObjectName "Float64Array";
    checkObjectName "BigInt64Array";
    checkObjectName "BigUint64Array";
    checkObjectName "String";
    checkObjectType TypeFlags_String ].

Definition isSupportedObject (type : ts.Type_) : bool :=
  existsb (fun check => check type) supporterObjects.

Definition isExpectedObject (node : Node) : bool :=
  match node with
  | MemberExpression _ object _ _ _ =>
      if ignoreFunctions options && hasCallExpression node then false
      else
        let type := getTypeAtLocation object in
        if negb (isSupportedObject type) then false
        else
          let atMember := ts.getProperty type "at" in
          match atMember with Some _ => true | None => false end
  | _ => false
  end.

(** The next three take a binary expression; the listener calls them on
    the [property] its selector has matched. *)
Definition isExpectedExpressionLeft (node : Node) : bool :=
  match node with
  | BinaryExpression _ _ left_ _ =>
      if negb (isExpectedObject left_)
         || negb (match getName left_ with
                  | Some n => String.eqb n "length"
                  | None => false
                  end)
      then false
      else
        let type := getTypeAtLocation left_ in
        tsutils.isTypeFlagSet type TypeFlags_NumberLike
  | _ => false
  end.

Definition isExpectedExpressionRight (node : Node) : bool :=
  match node with
  | BinaryExpression _ _ _ right_ =>
      let type := getTypeAtLocation right_ in
      tsutils.isTypeFlagSet type TypeFlags_NumberLike
  | _ => false
  end.

Definition isExpectedExpression (node : Node) : bool :=
  isExpectedExpressionRight node && isExpectedExpressionLeft node.

(** The selector
    [MemberExpression[property.type="BinaryExpression"][property.operator="-"]]. *)
Definition selector (node : Node) : bool :=
  match node with
  | MemberExpression _ _ (BinaryExpression _ operator _ _) _ _ =>
      String.eqb operator "-"
  | _ => false
  end.

(** The listener registered under the selector.  It returns the reports
    it passes to [context.report], in order.  Once [isExpectedExpression]
    holds, [node.property.left] is a member expression. *)
Definition listener (node : Node) : list ReportDescriptor :=
  match node with
  | MemberExpression _ object
      (BinaryExpression _ _ left_ right_ as property) _ _ =>
      if negb (isExpectedExpression property) then []
      else
        match left_ with
        | MemberExpression _ left_object _ _ _ =>
            let objectName := getFullName object in
            let memberName := getFullName left_object in
            let rightName := getFullName right_ in
            if negb (String.eqb objectName memberName) then []
            else
              [ {| messageId := "preferAt";
                   data := [("name", objectName)];
                   report_node := node;
                   fix_ := replaceText node
                            (objectName ++ ".at(-" ++ rightName ++ ")") |} ]
        | _ => []
        end
  | _ => []
  end.

(** One step of the host's traversal: the listener runs on the nodes its
    selector matches. *)
Definition visit (node : Node) : list ReportDescriptor :=
  if selector node then listener node else [].

End create.

(** ** The host's side of a report *)

Module host.

Definition is_blank (c : ascii) : bool :=
  match c with
  | " "%char | "009"%char | "010"%char | "013"%char => true
  | _ => false
  end.

Fixpoint trim_start (s : string) : string :=
  match s with
  | String c rest => if is_blank c then trim_start rest else s
  | EmptyString => EmptyString
  end.

Fixpoint trim_end (s : string) : string :=
  match s with
  | String c rest =>
      match trim_end rest with
      | EmptyString => if is_blank c then EmptyString else String c EmptyString
      | kept => String c kept
      end
  | EmptyString => EmptyString
  end.

Definition trim (s : string) : string := trim_end (trim_start s).

(** The term of a placeholder: the text after its two opening braces, up
    to the two closing ones, with no brace in between. *)
Fixpoint read_term (s : string) : option (string * string) :=
  match s with
  | String "}"%char (String "}"%char rest) => Some (EmptyString, rest)
  | String c rest =>
      if Ascii.eqb c "{"%char || Ascii.eqb c "}"%char then None
      else match read_term rest with
           | Some (term, after) => Some (String c term, after)
           | None => None
           end
  | EmptyString => None
  end.

Fixpoint lookup (key : string) (data : list (string * string))
  : option string :=
  match data with
  | (k, v) :: rest => if String.eqb k key then Some v else lookup key rest
  | [] => None
  end.

(** The host fills the placeholders of a message: each [{{term}}] whose
    trimmed term is a key of the data is replaced by its value, and the
    inserted value is not scanned again. *)
Fixpoint interpolate_from (fuel : nat) (text : string)
    (data : list (string * string)) : string :=
  match fuel, text with
  | S fuel', String c rest =>
      let placeholder :=
        match text with
        | String "{"%char (String "{"%char body) => read_term body
        | _ => None
        end in
      match placeholder with
      | Some (String t term, after) =>
          match lookup (trim (String t term)) data with
          | Some value => value
          | None => "{{" ++ String t term ++ "}}"
          end ++ interpolate_from fuel' after data
      | _ => String c (interpolate_from fuel' rest data)
      end
  | _, _ => text
  end.

Definition interpolate (text : string) (data : list (string * string))
  : string :=
  interpolate_from (String.length text) text data.

(** The message the host shows for a report of a rule with the given meta
    data. *)
Definition message (m : RuleMeta) (report : ReportDescriptor)
  : option string :=
  match lookup (messageId report) (messages m) with
  | Some template => Some (interpolate template (data report))
  | None => None
  end.

End host.

(** ** Notions the properties are stated with *)

(** The nodes reached from a member access by following [object] links,
    nearest first. *)
Fixpoint object_chain (node : Node) : list Node :=
  match node with
  | MemberExpression _ object _ _ _ => object :: object_chain object
  | _ => []
  end.

(** [getName(node) === 'length'] *)
Definition names_length (node : Node) : bool :=
  match getName node with
  | Some n => String.eqb n "length"
  | None => false
  end.

(** The symbol names of the allow-list, in the order of the source. *)
Definition allow_listed_names : list string :=
  [ "Array"; "Int8Array"; "Uint8Array"; "Uint8ClampedArray"; "Int16Array";
    "Uint16Array"; "Int32Array"; "Float32Array"; "Uint32Array";
    "Float64Array"; "BigInt64Array"; "BigUint64Array"; "String" ].

(** A type is allow-listed when its symbol carries one of the names or its
    flags are exactly those of the primitive string type. *)
Definition allow_listed (TypeFlags_String : N) (type : ts.Type_) : Prop :=
  (exists symbol, ts.getSymbol type = Some symbol
                  /\ In (ts.name symbol) allow_listed_names)
  \/ ts.getFlags type = TypeFlags_String.

Definition exposes_at (type : ts.Type_) : Prop :=
  ts.getProperty type "at" <> None.

Definition numeric_like (TypeFlags_NumberLike : N) (type : ts.Type_) : Prop :=
  tsutils.isTypeFlagSet type TypeFlags_NumberLike = true.

(** The idiom [X[X.length - N]] on well-typed operands: every criterion of
    a match but the one the [ignoreFunctions] option adds.  [object] is the
    indexed [X], [left_object] the [X] inside [left_], the [.length] access,
    and [right_] is [N]. *)
Definition matches_idiom (TypeFlags_String TypeFlags_NumberLike : N)
    (text : string) (typeOf : Node -> ts.Type_)
    (object left_object left_ right_ : Node) : Prop :=
  getName left_ = Some "length"
  /\ getFullName text object = getFullName text left_object
  /\ allow_listed TypeFlags_String (typeOf left_object)
  /\ exposes_at (typeOf left_object)
  /\ numeric_like TypeFlags_NumberLike (typeOf left_)
  /\ numeric_like TypeFlags_NumberLike (typeOf right_).

(** The nodes of a candidate the checker is asked about: the offset, the
    [.length] access and the object inside it. *)
Definition inner_nodes (node : Node) : list Node :=
  match node with
  | MemberExpression _ _ (BinaryExpression _ _ left_ right_) _ _ =>
      right_ :: left_ ::
      match left_ with
      | MemberExpression _ left_object _ _ _ => [left_object]
      | _ => []
      end
  | _ => []
  end.

(** The report of a match on [node], whose indexed object is [object] and
    whose offset is [offset]. *)
Definition preferAt_report (text : string) (node object offset : Node)
  : ReportDescriptor :=
  {| messageId := "preferAt";
     data := [("name", getFullName text object)];
     report_node := node;
     fix_ := {| fix_range := node_range node;
                fix_text := getFullName text object ++ ".at(-"
                            ++ getFullName text offset ++ ")" |} |}.

(** The conditions under which the listener reports, as one boolean, in
    the order the source evaluates them in. *)
Definition criteria (TypeFlags_String TypeFlags_NumberLike : N)
    (options : Options) (text : string) (typeOf : Node -> ts.Type_)
    (object left_object left_ right_ : Node) (operator : string) : bool :=
  String.eqb operator "-"
  && tsutils.isTypeFlagSet (typeOf right_) TypeFlags_NumberLike
  && negb (ignoreFunctions options && hasCallExpression left_)
  && isSupportedObject TypeFlags_String (typeOf left_object)
  && match ts.getProperty (typeOf left_object) "at" with
     | Some _ => true
     | None => false
     end
  && names_length left_
  && tsutils.isTypeFlagSet (typeOf left_) TypeFlags_NumberLike
  && String.eqb (getFullName text object) (getFullName text left_object).

(** The listener with its two checks in the other order: the comparison of
    the two source texts first, the type checks second.  The inner object
    exists only when the left operand is a member access, so that is what
    the comparison starts from. *)
Definition listener_text_first (TypeFlags_String TypeFlags_NumberLike : N)
    (options : Options) (text : string) (typeOf : Node -> ts.Type_)
    (node : Node) : list ReportDescriptor :=
  match node with
  | MemberExpression _ object
      (BinaryExpression _ _ left_ right_ as property) _ _ =>
      match left_ with
      | MemberExpression _ left_object _ _ _ =>
          let objectName := getFullName text object in
          let memberName := getFullName text left_object in
          let rightName := getFullName text right_ in
          if negb (String.eqb objectName memberName) then []
          else if negb (isExpectedExpression TypeFlags_String
                          TypeFlags_NumberLike options typeOf property)
               then []
               else
                 [ {| messageId := "preferAt";
                      data := [("name", objectName)];
                      report_node := node;
                      fix_ := replaceText node
                                (objectName ++ ".at(-" ++ rightName ++ ")") |} ]
      | _ => []
      end
  | _ => []
  end.

Definition visit_text_first (TypeFlags_String TypeFlags_NumberLike : N)
    (options : Options) (text : string) (typeOf : Node -> ts.Type_)
    (node : Node) : list ReportDescriptor :=
  if selector node
  then listener_text_first TypeFlags_String TypeFlags_NumberLike options
         text typeOf node
  else [].

(** *** Spans as the parser lays them out *)

Definition span_within (inner outer : Range) : bool :=
  Nat.leb (fst outer) (fst inner) && Nat.leb (snd inner) (snd outer).

Definition span_before (a b : Range) : bool := Nat.leb (snd a) (fst b).

(** Every node covers at least one character, lies within its parent, and
    the operands of a member access and of a binary expression follow each
    other in the text. *)
Fixpoint well_spanned (node : Node) : bool :=
  Nat.ltb (fst (node_range node)) (snd (node_range node))
  && match node with
     | Identifier _ _ | Literal _ _ => true
     | MemberExpression r object property _ _ =>
         span_within (node_range object) r
         && span_within (node_range property) r
         && span_before (node_range object) (node_range property)
         && well_spanned object && well_spanned property
     | CallExpression r callee arguments =>
         span_within (node_range callee) r && well_spanned callee
         && forallb (fun a => span_within (node_range a) r && well_spanned a)
              arguments
     | BinaryExpression r _ left_ right_ =>
         span_within (node_range left_) r
         && span_within (node_range right_) r
         && span_before (node_range left_) (node_range right_)
         && well_spanned left_ && well_spanned right_
     | UnaryExpression r _ argument =>
         span_within (node_range argument) r && well_spanned argument
     | OtherNode r _ children =>
         forallb (fun a => span_within (node_range a) r && well_spanned a)
           children
     end.

Fixpoint last_char (s : string) : option ascii :=
  match s with
  | EmptyString => None
  | String c EmptyString => Some c
  | String _ rest => last_char rest
  end.

(** What the parser guarantees of a member access: a property written
    after a dot is a name, never a binary expression, and the source of a
    computed access ends with its closing bracket. *)
Definition member_well_delimited (text : string) (node : Node) : Prop :=
  match node with
  | MemberExpression _ _ property computed _ =>
      (computed = false -> node_type property <> T_BinaryExpression)
      /\ (computed = true -> last_char (getFullName text node) = Some "]"%char)
  | _ => True
  end.

(** ** Concrete programs *)

Module Examples.

(** The flag values of the TypeScript compiler: [String] is [1 << 2],
    [NumberLike] is [Number | NumberLiteral | Enum]. *)
Definition TypeFlags_String : N := 4.
Definition TypeFlags_Number : N := 8.
Definition TypeFlags_Enum : N := 32.
Definition TypeFlags_NumberLiteral : N := 256.
Definition TypeFlags_Object : N := 524288.
Definition TypeFlags_NumberLike : N :=
  N.lor TypeFlags_Number (N.lor TypeFlags_NumberLiteral TypeFlags_Enum).

Definition members (names : list string) (name : string)
  : option ts.Symbol :=
  if existsb (String.eqb name) names then Some (ts.mkSymbol name) else None.

(** [number[]] *)
Definition arrayType : ts.Type_ :=
  {| ts.getSymbol := Some (ts.mkSymbol "Array");
     ts.getFlags := TypeFlags_Object;
     ts.getProperty := members ["length"; "at"; "push"; "pop"] |}.

(** An array type of a library that does not declare [at] yet. *)
Definition oldArrayType : ts.Type_ :=
  {| ts.getSymbol := Some (ts.mkSymbol "Array");
     ts.getFlags := TypeFlags_Object;
     ts.getProperty := members ["length"; "push"; "pop"] |}.

(** [string] *)
Definition stringType : ts.Type_ :=
  {| ts.getSymbol := None;
     ts.getFlags := TypeFlags_String;
     ts.getProperty := members ["length"; "at"; "charAt"] |}.

(** [number] *)
Definition numberType : ts.Type_ :=
  {| ts.getSymbol := None;
     ts.getFlags := TypeFlags_Number;
     ts.getProperty := members ["toFixed"] |}.

(** The type of a numeric literal. *)
Definition numberLiteralType : ts.Type_ :=
  {| ts.getSymbol := None;
     ts.getFlags := TypeFlags_NumberLiteral;
     ts.getProperty := members ["toFixed"] |}.

(** [Record<string, number>] *)
Definition recordType : ts.Type_ :=
  {| ts.getSymbol := Some (ts.mkSymbol "__type");
     ts.getFlags := TypeFlags_Object;
     ts.getProperty := members [] |}.

(** A checker for which every [.length] access and every arithmetic
    expression is a number, every literal a numeric literal and everything
    else is of type [other]. *)
Definition checker (other : ts.Type_) (node : Node) : ts.Type_ :=
  match node with
  | Literal _ _ => numberLiteralType
  | BinaryExpression _ _ _ _ | UnaryExpression _ _ _ => numberType
  | MemberExpression _ _ property _ _ =>
      if names_length property then numberType else other
  | _ => other
  end.

Definition enabled : Options := {| ignoreFunctions := true |}.

Definition run (options : Options) (text : string)
    (typeOf : Node -> ts.Type_) (node : Node) : list ReportDescriptor :=
  visit TypeFlags_String TypeFlags_NumberLike options text typeOf node.

(** [arr[arr.length - 1]] *)
Definition arr_text : string := "arr[arr.length - 1]".
Definition arr_outer : Node := Identifier (0, 3) "arr".
Definition arr_inner : Node := Identifier (4, 7) "arr".
Definition arr_length : Node :=
  MemberExpression (4, 14) arr_inner (Identifier (8, 14) "length")
    false false.
Definition arr_one : Node := Literal (17, 18) "1".
Definition arr_last : Node :=
  MemberExpression (0, 19) arr_outer
    (BinaryExpression (4, 18) "-" arr_length arr_one) true false.

(** [s[s.length - 2]] *)
Definition s_text : string := "s[s.length - 2]".
Definition s_outer : Node := Identifier (0, 1) "s".
Definition s_inner : Node := Identifier (2, 3) "s".
Definition s_length : Node :=
  MemberExpression (2, 10) s_inner (Identifier (4, 10) "length")
    false false.
Definition s_two : Node := Literal (13, 14) "2".
Definition s_second_last : Node :=
  MemberExpression (0, 15) s_outer
    (BinaryExpression (2, 14) "-" s_length s_two) true false.

(** [b[a.length - 1]] *)
Definition ba_text : string := "b[a.length - 1]".
Definition ba_node : Node :=
  MemberExpression (0, 15) (Identifier (0, 1) "b")
    (BinaryExpression (2, 14) "-"
       (MemberExpression (2, 10) (Identifier (2, 3) "a")
          (Identifier (4, 10) "length") false false)
       (Literal (13, 14) "1")) true false.

(** [f()[f().length - 1]] *)
Definition f_text : string := "f()[f().length - 1]".
Definition f_outer : Node :=
  CallExpression (0, 3) (Identifier (0, 1) "f") [].
Definition f_inner : Node :=
  CallExpression (4, 7) (Identifier (4, 5) "f") [].
Definition f_length : Node :=
  MemberExpression (4, 14) f_inner (Identifier (8, 14) "length")
    false false.
Definition f_one : Node := Literal (17, 18) "1".
Definition f_last : Node :=
  MemberExpression (0, 19) f_outer
    (BinaryExpression (4, 18) "-" f_length f_one) true false.

(** [a[f()][a[f()].length - 1]] *)
Definition af_text : string := "a[f()][a[f()].length - 1]".
Definition af_outer : Node :=
  MemberExpression (0, 6) (Identifier (0, 1) "a")
    (CallExpression (2, 5) (Identifier (2, 3) "f") []) true false.
Definition af_key : Node :=
  CallExpression (9, 12) (Identifier (9, 10) "f") [].
Definition af_inner : Node :=
  MemberExpression (7, 13) (Identifier (7, 8) "a") af_key true false.
Definition af_length : Node :=
  MemberExpression (7, 20) af_inner (Identifier (14, 20) "length")
    false false.
Definition af_one : Node := Literal (23, 24) "1".
Definition af_last : Node :=
  MemberExpression (0, 25) af_outer
    (BinaryExpression (7, 24) "-" af_length af_one) true false.

(** [arr[arr.length - (n - 1)]]: the span of the offset lies inside the
    parentheses. *)
Definition paren_text : string := "arr[arr.length - (n - 1)]".
Definition paren_offset : Node :=
  BinaryExpression (18, 23) "-" (Identifier (18, 19) "n")
    (Literal (22, 23) "1").
Definition paren_node : Node :=
  MemberExpression (0, 25) arr_outer
    (BinaryExpression (4, 24) "-" arr_length paren_offset) true false.

(** [arr.at(-1)], the text the fix leaves behind, as the parser reads
    it. *)
Definition fixed_text : string := "arr.at(-1)".
Definition fixed_node : Node :=
  CallExpression (0, 10)
    (MemberExpression (0, 6) (Identifier (0, 3) "arr")
       (Identifier (4, 6) "at") false false)
    [UnaryExpression (7, 9) "-" (Literal (8, 9) "1")].

(** A checker that answers as [checker arrayType] does, except on the
    outer object of [arr[arr.length - 1]]. *)
Definition other_checker (node : Node) : ts.Type_ :=
  match node with
  | Identifier (0, 3) name =>
      if String.eqb name "arr" then recordType else checker arrayType node
  | _ => checker arrayType node
  end.

(** The type of a string literal: the flag [StringLiteral], [1 << 7]. *)
Definition TypeFlags_StringLiteral : N := 128.
Definition stringLiteralType : ts.Type_ :=
  {| ts.getSymbol := None;
     ts.getFlags := TypeFlags_StringLiteral;
     ts.getProperty := members ["length"; "at"; "charAt"] |}.

(** [arr[arr.length + 1]] *)
Definition plus_text : string := "arr[arr.length + 1]".
Definition plus_node : Node :=
  MemberExpression (0, 19) arr_outer
    (BinaryExpression (4, 18) "+" arr_length arr_one) true false.

(** [arr[arr['length'] - 1]] *)
Definition quoted_text : string := "arr[arr['length'] - 1]".
Definition quoted_key : Node := Literal (8, 16) "'length'".
Definition quoted_node : Node :=
  MemberExpression (0, 22) arr_outer
    (BinaryExpression (4, 21) "-"
       (MemberExpression (4, 17) arr_inner quoted_key true false)
       (Literal (20, 21) "1")) true false.

(** [arr[arr[foo.length] - 1]] *)
Definition nested_text : string := "arr[arr[foo.length] - 1]".
Definition nested_key : Node :=
  MemberExpression (8, 18) (Identifier (8, 11) "foo")
    (Identifier (12, 18) "length") false false.
Definition nested_left : Node :=
  MemberExpression (4, 19) arr_inner nested_key true false.
Definition nested_one : Node := Literal (22, 23) "1".
Definition nested_node : Node :=
  MemberExpression (0, 24) arr_outer
    (BinaryExpression (4, 23) "-" nested_left nested_one) true false.

(** [f()![f()!.length - 1]] *)
Definition bang_text : string := "f()![f()!.length - 1]".
Definition bang_outer : Node :=
  OtherNode (0, 4) "TSNonNullExpression"
    [CallExpression (0, 3) (Identifier (0, 1) "f") []].
Definition bang_inner : Node :=
  OtherNode (5, 9) "TSNonNullExpression"
    [CallExpression (5, 8) (Identifier (5, 6) "f") []].
Definition bang_length : Node :=
  MemberExpression (5, 16) bang_inner (Identifier (10, 16) "length")
    false false.
Definition bang_one : Node := Literal (19, 20) "1".
Definition bang_node : Node :=
  MemberExpression (0, 21) bang_outer
    (BinaryExpression (5, 20) "-" bang_length bang_one) true false.

(** [f().a.b]: a call two [object] links below a member access. *)
Definition deep_call : Node :=
  MemberExpression (0, 7)
    (MemberExpression (0, 5)
       (CallExpression (0, 3) (Identifier (0, 1) "f") [])
       (Identifier (4, 5) "a") false false)
    (Identifier (6, 7) "b") false false.

(** [arr[arr.length - xs]], where [xs] is an array itself. *)
Definition xs_text : string := "arr[arr.length - xs]".
Definition xs_offset : Node := Identifier (17, 19) "xs".
Definition xs_node : Node :=
  MemberExpression (0, 20) arr_outer
    (BinaryExpression (4, 19) "-" arr_length xs_offset) true false.

End Examples.

(** * Properties *)

(** ** Strings *)

Lemma last_char_app (a b : string) :
  b <> EmptyString -> last_char (a ++ b) = last_char b.
Proof.
  intros Hb. induction a as [|c a IH]; simpl; [reflexivity|].
  rewrite IH. destruct (a ++ b)%string eqn:E; [|reflexivity].
  destruct a; simpl in E; [contradiction|discriminate].
Qed.

Lemma last_char_replacement (object offset : string) :
  last_char (object ++ ".at(-" ++ offset ++ ")") = Some ")"%char.
Proof.
  rewrite last_char_app by (simpl; discriminate).
  rewrite last_char_app.
  - rewrite last_char_app by discriminate. reflexivity.
  - destruct offset; discriminate.
Qed.

(** ** The allow-list *)

Lemma checkObjectName_true (name : string) (type : ts.Type_) :
  checkObjectName name type = true
  <-> exists symbol, ts.getSymbol type = Some symbol /\ ts.name symbol = name.
Proof.
  unfold checkObjectName. destruct (ts.getSymbol type) as [s|].
  - rewrite String.eqb_eq. split.
    + intros H. exists s. auto.
    + intros (s' & E & H). inversion E. subst. reflexivity.
  - split; [discriminate|]. intros (s' & E & _). discriminate.
Qed.

Lemma isSupportedObject_allow_listed (TypeFlags_String : N) (type : ts.Type_) :
  isSupportedObject TypeFlags_String type = true
  <-> allow_listed TypeFlags_String type.
Proof.
  unfold isSupportedObject, allow_listed. rewrite existsb_exists. split.
  - intros (check & Hin & Hc). simpl in Hin.
    repeat (destruct Hin as [<-|Hin];
            [ try (apply checkObjectName_true in Hc as (s & E & Hn);
                   left; exists s; split; [exact E|];
                   rewrite Hn; simpl; tauto) | ]).
    + right. apply N.eqb_eq. exact Hc.
    + contradiction.
  - intros [(s & E & Hin)|Hf].
    + exists (checkObjectName (ts.name s)). split.
      * simpl in Hin. simpl.
        repeat (destruct Hin as [<-|Hin]; [tauto|]). contradiction.
      * apply checkObjectName_true. exists s. auto.
    + exists (checkObjectType TypeFlags_String). split.
      * simpl. tauto.
      * apply N.eqb_eq. exact Hf.
Qed.

(** ** The walk along [object] links *)

Lemma hasCallExpression_object_chain (node : Node) :
  hasCallExpression node = existsb isCallExpression (object_chain node).
Proof.
  induction node as [ | | r object IHo property _ c o | | | | ];
    try reflexivity.
  destruct object; try reflexivity.
  exact IHo.
Qed.

(** The walk does not look at the property of any member access on its
    way. *)
Lemma hasCallExpression_property_blind
    (r r' : Range) (object property property' : Node) (c c' o o' : bool) :
  hasCallExpression (MemberExpression r object property c o)
  = hasCallExpression (MemberExpression r' object property' c' o').
Proof. reflexivity. Qed.

(** ** What one visit does *)

Section visit_facts.

Variables TypeFlags_String TypeFlags_NumberLike : N.
Variable options : Options.
Variable text : string.
Variable typeOf : Node -> ts.Type_.

Local Abbreviation visit_here :=
  (visit TypeFlags_String TypeFlags_NumberLike options text typeOf).
Local Abbreviation criteria_here :=
  (criteria TypeFlags_String TypeFlags_NumberLike options text typeOf).

Lemma visit_candidate (r pr lr : Range) (object left_object lprop right_ : Node)
    (operator : string) (c o lc lo : bool) :
  let left_ := MemberExpression lr left_object lprop lc lo in
  let node :=
    MemberExpression r object (BinaryExpression pr operator left_ right_) c o in
  visit_here node
  = if criteria_here object left_object left_ right_ operator
    then [preferAt_report text node object right_]
    else [].
Proof.
  intros left_ node. unfold criteria, visit.
  cbn [node selector].
  destruct (String.eqb operator "-"); [|reflexivity].
  unfold node at 1, listener, isExpectedExpression,
    isExpectedExpressionRight, isExpectedExpressionLeft.
  destruct (tsutils.isTypeFlagSet (typeOf right_) TypeFlags_NumberLike);
    [|reflexivity].
  unfold left_ at 1 2, isExpectedObject. fold left_.
  destruct (ignoreFunctions options && hasCallExpression left_);
    [reflexivity|].
  destruct (isSupportedObject TypeFlags_String (typeOf left_object));
    [|reflexivity].
  destruct (ts.getProperty (typeOf left_object) "at"); [|reflexivity].
  unfold names_length.
  destruct (getName left_) as [n|]; [|reflexivity].
  destruct (String.eqb n "length"); [|reflexivity].
  destruct (tsutils.isTypeFlagSet (typeOf left_) TypeFlags_NumberLike);
    [|reflexivity].
  subst left_ node. cbn [andb orb negb].
  destruct (String.eqb (getFullName text object)
              (getFullName text left_object)); reflexivity.
Qed.

(** A report comes from a node of the candidate shape only, and it is the
    one report of that node. *)
Lemma visit_inv (node : Node) (report : ReportDescriptor) :
  In report (visit_here node) ->
  exists r pr lr object left_object lprop right_ operator c o lc lo,
    let left_ := MemberExpression lr left_object lprop lc lo in
    node = MemberExpression r object
             (BinaryExpression pr operator left_ right_) c o
    /\ criteria_here object left_object left_ right_ operator = true
    /\ report = preferAt_report text node object right_.
Proof.
  destruct node as [ | | r object property c o | | | | ];
    try (intros []).
  destruct property as [ | | | | pr operator left_ right_ | | ];
    try (intros []).
  destruct left_ as [ | | lr left_object lprop lc lo | | | | ];
    try (unfold visit, selector, listener,
           isExpectedExpression, isExpectedExpressionLeft,
           isExpectedExpressionRight, isExpectedObject;
         cbn [negb orb]; rewrite andb_false_r;
         destruct (String.eqb operator "-"); intros []).
  rewrite visit_candidate.
  destruct (criteria _ _ _ _ _ _ _ _ _ _) eqn:E; [|intros []].
  intros [<-|[]].
  exists r, pr, lr, object, left_object, lprop, right_, operator, c, o, lc, lo.
  cbv zeta. auto.
Qed.

End visit_facts.

(** ** The criteria, one by one *)

Lemma names_length_true (node : Node) :
  names_length node = true <-> getName node = Some "length".
Proof.
  unfold names_length. destruct (getName node) as [n|].
  - rewrite String.eqb_eq. split; congruence.
  - split; discriminate.
Qed.

Lemma exposes_at_true (type : ts.Type_) :
  match ts.getProperty type "at" with Some _ => true | None => false end = true
  <-> exposes_at type.
Proof.
  unfold exposes_at. destruct (ts.getProperty type "at"); split;
    congruence || discriminate || auto.
Qed.

Lemma criteria_true_iff (TypeFlags_String TypeFlags_NumberLike : N)
    (options : Options) (text : string) (typeOf : Node -> ts.Type_)
    (object left_object left_ right_ : Node) (operator : string) :
  criteria TypeFlags_String TypeFlags_NumberLike options text typeOf
    object left_object left_ right_ operator = true
  <-> operator = "-"
      /\ ignoreFunctions options && hasCallExpression left_ = false
      /\ matches_idiom TypeFlags_String TypeFlags_NumberLike text typeOf
           object left_object left_ right_.
Proof.
  unfold criteria, matches_idiom, numeric_like.
  rewrite !andb_true_iff, negb_true_iff, !String.eqb_eq,
    isSupportedObject_allow_listed, exposes_at_true, names_length_true.
  tauto.
Qed.

(** Evaluation of the idiom on a concrete program. *)
Ltac idiom_by_evaluation :=
  repeat split;
  first [ reflexivity
        | apply isSupportedObject_allow_listed; reflexivity
        | unfold exposes_at; simpl; discriminate ].

(** ** The listed properties *)

(** C1, as amended.  A node [X[X.length - N]] whose two [X] have the same
    source text, whose inner [X] has an allow-listed type with a member
    [at], and whose [X.length] and [N] are numeric-like, gets exactly one
    report, and the fix of that report replaces the span of the whole node
    by the source of [X], then [.at(-], then the source of [N], then [)] --
    provided the option [ignoreFunctions] is off or the walk along the
    [object] links of [X.length] meets no call expression. *)
Theorem length_index_reported
    (TypeFlags_String TypeFlags_NumberLike : N) (options : Options)
    (text : string) (typeOf : Node -> ts.Type_)
    (r pr lr : Range) (X X' lprop N_ : Node) (c o lc lo : bool) :
  let left_ := MemberExpression lr X' lprop lc lo in
  let node := MemberExpression r X (BinaryExpression pr "-" left_ N_) c o in
  matches_idiom TypeFlags_String TypeFlags_NumberLike text typeOf
    X X' left_ N_ ->
  (ignoreFunctions options = true ->
   existsb isCallExpression (object_chain left_) = false) ->
  visit TypeFlags_String TypeFlags_NumberLike options text typeOf node
  = [ {| messageId := "preferAt";
         data := [("name", getFullName text X)];
         report_node := node;
         fix_ := {| fix_range := r;
                    fix_text := getFullName text X ++ ".at(-"
                                ++ getFullName text N_ ++ ")" |} |} ].
Proof.
  intros left_ node Hidiom Hcalls. subst node. unfold left_ at 1.
  rewrite visit_candidate. fold left_.
  replace (criteria _ _ _ _ _ _ _ _ _ _) with true; [reflexivity|].
  symmetry. apply criteria_true_iff. repeat split; try apply Hidiom.
  rewrite hasCallExpression_object_chain.
  destruct (ignoreFunctions options); [|reflexivity].
  rewrite Hcalls; reflexivity.
Qed.

Lemma length_index_reported_witness :
  Examples.run defaultOptions Examples.arr_text
    (Examples.checker Examples.arrayType) Examples.arr_last
  = [ {| messageId := "preferAt";
         data := [("name", "arr")];
         report_node := Examples.arr_last;
         fix_ := {| fix_range := (0, 19); fix_text := "arr.at(-1)" |} |} ].
Proof.
  apply (length_index_reported Examples.TypeFlags_String
           Examples.TypeFlags_NumberLike defaultOptions Examples.arr_text
           (Examples.checker Examples.arrayType)
           (0, 19) (4, 18) (4, 14) Examples.arr_outer Examples.arr_inner
           (Identifier (8, 14) "length") Examples.arr_one true false
           false false).
  - idiom_by_evaluation.
  - simpl. discriminate.
Defined.

(** C1 without the proviso on [ignoreFunctions] fails: with the option on,
    [f()[f().length - 1]] is the idiom on well-typed operands and is not
    reported. *)
Lemma length_index_call_chain_counterexample :
  Examples.f_last
  = MemberExpression (0, 19) Examples.f_outer
      (BinaryExpression (4, 18) "-" Examples.f_length Examples.f_one)
      true false
  /\ Examples.f_length
     = MemberExpression (4, 14) Examples.f_inner
         (Identifier (8, 14) "length") false false
  /\ matches_idiom Examples.TypeFlags_String Examples.TypeFlags_NumberLike
       Examples.f_text (Examples.checker Examples.arrayType)
       Examples.f_outer Examples.f_inner Examples.f_length Examples.f_one
  /\ visit Examples.TypeFlags_String Examples.TypeFlags_NumberLike
       {| ignoreFunctions := true |} Examples.f_text
       (Examples.checker Examples.arrayType) Examples.f_last
     = [].
Proof.
  split; [reflexivity|]. split; [reflexivity|]. split.
  - idiom_by_evaluation.
  - reflexivity.
Qed.

(** C2.  A node [A[B.length - N]] in which the source text of [A] is not
    the source text of [B] gets no report, whatever the types are. *)
Theorem different_text_unreported
    (TypeFlags_String TypeFlags_NumberLike : N) (options : Options)
    (text : string) (typeOf : Node -> ts.Type_)
    (r pr lr : Range) (A B lprop N_ : Node) (operator : string)
    (c o lc lo : bool) :
  getFullName text A <> getFullName text B ->
  visit TypeFlags_String TypeFlags_NumberLike options text typeOf
    (MemberExpression r A
       (BinaryExpression pr operator
          (MemberExpression lr B lprop lc lo) N_) c o)
  = [].
Proof.
  intros Hdiff. rewrite visit_candidate.
  destruct (criteria _ _ _ _ _ _ _ _ _ _) eqn:E; [|reflexivity].
  apply criteria_true_iff in E as (_ & _ & _ & Heq & _). contradiction.
Qed.

Lemma different_text_unreported_witness :
  Examples.run defaultOptions Examples.ba_text
    (Examples.checker Examples.arrayType) Examples.ba_node
  = [].
Proof.
  apply (different_text_unreported Examples.TypeFlags_String
           Examples.TypeFlags_NumberLike defaultOptions Examples.ba_text
           (Examples.checker Examples.arrayType)).
  vm_compute. discriminate.
Defined.

(** C3.  A node [X[X.length - N]] gets no report when the type of the
    object inside the [.length] access is not allow-listed -- its symbol is
    named neither [Array], nor as one of the eleven typed arrays, nor
    [String], and its flags are not exactly the flag of the primitive
    string -- or when that type has no property [at]. *)
Theorem unsupported_type_unreported
    (TypeFlags_String TypeFlags_NumberLike : N) (options : Options)
    (text : string) (typeOf : Node -> ts.Type_)
    (r pr lr : Range) (X X' lprop N_ : Node) (operator : string)
    (c o lc lo : bool) :
  ~ allow_listed TypeFlags_String (typeOf X')
  \/ ts.getProperty (typeOf X') "at" = None ->
  visit TypeFlags_String TypeFlags_NumberLike options text typeOf
    (MemberExpression r X
       (BinaryExpression pr operator
          (MemberExpression lr X' lprop lc lo) N_) c o)
  = [].
Proof.
  intros Hbad. rewrite visit_candidate.
  destruct (criteria _ _ _ _ _ _ _ _ _ _) eqn:E; [|reflexivity].
  apply criteria_true_iff in E as (_ & _ & _ & _ & Hallow & Hat & _).
  destruct Hbad as [Hbad|Hbad]; contradiction.
Qed.

Lemma unsupported_type_unreported_witness :
  Examples.run defaultOptions Examples.arr_text
    (Examples.checker Examples.recordType) Examples.arr_last = []
  /\ Examples.run defaultOptions Examples.arr_text
       (Examples.checker Examples.oldArrayType) Examples.arr_last = [].
Proof.
  split.
  - apply (unsupported_type_unreported Examples.TypeFlags_String
             Examples.TypeFlags_NumberLike defaultOptions Examples.arr_text
             (Examples.checker Examples.recordType)).
    left. intros H. apply isSupportedObject_allow_listed in H.
    vm_compute in H. discriminate.
  - apply (unsupported_type_unreported Examples.TypeFlags_String
             Examples.TypeFlags_NumberLike defaultOptions Examples.arr_text
             (Examples.checker Examples.oldArrayType)).
    right. reflexivity.
Defined.

(** C4.  Take a candidate whose walk along [object] links, from the
    [.length] access inwards, meets a call expression.  With
    [ignoreFunctions] on it gets no report, whatever else holds.  With
    [ignoreFunctions] off, which is the default, the call plays no role: the
    idiom is reported with its usual fix. *)
Theorem ignoreFunctions_decides_call_chains
    (TypeFlags_String TypeFlags_NumberLike : N)
    (text : string) (typeOf : Node -> ts.Type_)
    (r pr lr : Range) (X X' lprop N_ : Node) (c o lc lo : bool) :
  let left_ := MemberExpression lr X' lprop lc lo in
  let node := MemberExpression r X (BinaryExpression pr "-" left_ N_) c o in
  existsb isCallExpression (object_chain left_) = true ->
  (forall options, ignoreFunctions options = true ->
     visit TypeFlags_String TypeFlags_NumberLike options text typeOf node
     = [])
  /\ (forall options, ignoreFunctions options = false ->
        matches_idiom TypeFlags_String TypeFlags_NumberLike text typeOf
          X X' left_ N_ ->
        visit TypeFlags_String TypeFlags_NumberLike options text typeOf node
        = [ {| messageId := "preferAt";
               data := [("name", getFullName text X)];
               report_node := node;
               fix_ := {| fix_range := r;
                          fix_text := getFullName text X ++ ".at(-"
                                      ++ getFullName text N_ ++ ")" |} |} ])
  /\ ignoreFunctions defaultOptions = false.
Proof.
  intros left_ node Hcall.
  rewrite <- hasCallExpression_object_chain in Hcall.
  repeat split.
  - intros options Hon. subst node. unfold left_ at 1.
    rewrite visit_candidate. fold left_.
    destruct (criteria _ _ _ _ _ _ _ _ _ _) eqn:E; [|reflexivity].
    apply criteria_true_iff in E as (_ & Hoff & _).
    rewrite Hon, Hcall in Hoff. discriminate.
  - intros options Hoff Hidiom. subst node. unfold left_ at 1.
    rewrite visit_candidate. fold left_.
    replace (criteria _ _ _ _ _ _ _ _ _ _) with true; [reflexivity|].
    symmetry. apply criteria_true_iff. rewrite Hoff. auto.
Qed.

Lemma ignoreFunctions_decides_call_chains_witness :
  Examples.run Examples.enabled Examples.f_text
    (Examples.checker Examples.arrayType) Examples.f_last = []
  /\ Examples.run defaultOptions Examples.f_text
       (Examples.checker Examples.arrayType) Examples.f_last
     = [ {| messageId := "preferAt";
            data := [("name", "f()")];
            report_node := Examples.f_last;
            fix_ := {| fix_range := (0, 19); fix_text := "f().at(-1)" |} |} ].
Proof.
  destruct (ignoreFunctions_decides_call_chains Examples.TypeFlags_String
              Examples.TypeFlags_NumberLike Examples.f_text
              (Examples.checker Examples.arrayType)
              (0, 19) (4, 18) (4, 14) Examples.f_outer Examples.f_inner
              (Identifier (8, 14) "length") Examples.f_one true false
              false false eq_refl) as (Hon & Hoff & _).
  split.
  - apply Hon. reflexivity.
  - apply Hoff; [reflexivity|idiom_by_evaluation].
Defined.

(** C5.  Whatever the offset is -- a literal, a variable, a signed or a
    parenthesised expression -- the fix of a report covers the span of the
    whole member access, and its text is the source of the object, then
    [.at(-], then the source of the offset as it stands, then [)]. *)
Theorem fix_negates_offset_verbatim
    (TypeFlags_String TypeFlags_NumberLike : N) (options : Options)
    (text : string) (typeOf : Node -> ts.Type_)
    (r pr : Range) (object left_ offset : Node) (operator : string)
    (c o : bool) (report : ReportDescriptor) :
  In report
    (visit TypeFlags_String TypeFlags_NumberLike options text typeOf
       (MemberExpression r object
          (BinaryExpression pr operator left_ offset) c o)) ->
  fix_ report
  = {| fix_range := r;
       fix_text := getFullName text object ++ ".at(-"
                   ++ getFullName text offset ++ ")" |}.
Proof.
  intros Hin.
  apply visit_inv in Hin
    as (r' & pr' & lr & object' & lobj & lprop & right_ & op' & c' & o'
        & lc & lo & Hnode & _ & ->).
  injection Hnode as -> -> -> -> -> -> -> ->. reflexivity.
Qed.

Lemma fix_negates_offset_verbatim_witness :
  exists report,
    In report
      (Examples.run defaultOptions Examples.paren_text
         (Examples.checker Examples.arrayType) Examples.paren_node)
    /\ getFullName Examples.paren_text Examples.paren_offset = "n - 1"
    /\ fix_ report
       = {| fix_range := (0, 25); fix_text := "arr.at(-n - 1)" |}.
Proof.
  eexists. split; [left; reflexivity|]. split; [reflexivity|].
  apply (fix_negates_offset_verbatim Examples.TypeFlags_String
           Examples.TypeFlags_NumberLike defaultOptions Examples.paren_text
           (Examples.checker Examples.arrayType)
           (0, 25) (4, 24) Examples.arr_outer Examples.arr_length
           Examples.paren_offset "-" true false).
  left. reflexivity.
Defined.

(** C6.  The comparison of the two source texts and the type checks can
    be made in either order: on every node, the listener that compares the
    texts first emits the reports the listener of the rule emits. *)
Theorem check_order_irrelevant
    (TypeFlags_String TypeFlags_NumberLike : N) (options : Options)
    (text : string) (typeOf : Node -> ts.Type_) (node : Node) :
  visit_text_first TypeFlags_String TypeFlags_NumberLike options text
    typeOf node
  = visit TypeFlags_String TypeFlags_NumberLike options text typeOf node.
Proof.
  unfold visit_text_first, visit.
  destruct (selector node); [|reflexivity].
  destruct node as [ | | r object property c o | | | | ]; try reflexivity.
  destruct property as [ | | | | pr operator left_ right_ | | ];
    try reflexivity.
  unfold listener_text_first, listener.
  destruct left_ as [ | | lr left_object lprop lc lo | | | | ];
    try (destruct (negb (isExpectedExpression _ _ _ _ _)); reflexivity).
  destruct (negb (String.eqb _ _)), (negb (isExpectedExpression _ _ _ _ _));
    reflexivity.
Qed.

(** C7.  The fix is not matched again.  The text a fix puts in place
    ends with the closing parenthesis of [.at(-N)], where the source of a
    computed member access ends with a bracket: so a node that spans the
    replacement is not selected, and visiting it reports nothing. *)
Theorem fix_not_matched_again
    (TypeFlags_String TypeFlags_NumberLike : N) (options options' : Options)
    (text text' : string) (typeOf typeOf' : Node -> ts.Type_)
    (node rewritten : Node) (report : ReportDescriptor) :
  In report
    (visit TypeFlags_String TypeFlags_NumberLike options text typeOf node) ->
  getFullName text' rewritten = fix_text (fix_ report) ->
  member_well_delimited text' rewritten ->
  selector rewritten = false
  /\ visit TypeFlags_String TypeFlags_NumberLike options' text' typeOf'
       rewritten = [].
Proof.
  intros Hin Hspan Hwf.
  apply visit_inv in Hin
    as (r & pr & lr & object & lobj & lprop & right_ & op & c & o
        & lc & lo & _ & _ & ->).
  cbn [preferAt_report fix_ fix_text] in Hspan.
  assert (Hsel : selector rewritten = false).
  { destruct rewritten as [ | | r' object' property' c' o' | | | | ];
      try reflexivity.
    destruct property' as [ | | | | pr' op' l' r'' | | ]; try reflexivity.
    destruct Hwf as [Hdot Hbracket]. destruct c'.
    - specialize (Hbracket eq_refl). rewrite Hspan in Hbracket.
      rewrite last_char_replacement in Hbracket. discriminate.
    - exfalso. apply (Hdot eq_refl). reflexivity. }
  split; [exact Hsel|]. unfold visit. rewrite Hsel. reflexivity.
Qed.

Lemma fix_not_matched_again_witness :
  getFullName Examples.fixed_text Examples.fixed_node = "arr.at(-1)"
  /\ selector Examples.fixed_node = false
  /\ Examples.run defaultOptions Examples.fixed_text
       (Examples.checker Examples.arrayType) Examples.fixed_node = [].
Proof.
  split; [reflexivity|].
  apply (fix_not_matched_again Examples.TypeFlags_String
           Examples.TypeFlags_NumberLike defaultOptions defaultOptions
           Examples.arr_text Examples.fixed_text
           (Examples.checker Examples.arrayType)
           (Examples.checker Examples.arrayType)
           Examples.arr_last Examples.fixed_node
           (preferAt_report Examples.arr_text Examples.arr_last
              Examples.arr_outer Examples.arr_one)).
  - left. reflexivity.
  - reflexivity.
  - exact I.
Defined.

(** C8.  A match is reported once, under the one message of the rule:
    the template that speaks of [.at(-1)] and [.length - 1], with the source
    text of the indexed object in the place of [name] and nothing taken from
    the offset.  The report carries one fix, and the rule declares its fixes
    as code fixes. *)
Theorem message_names_offset_one
    (TypeFlags_String TypeFlags_NumberLike : N) (options : Options)
    (text : string) (typeOf : Node -> ts.Type_)
    (r pr : Range) (object left_ offset : Node) (operator : string)
    (c o : bool) (report : ReportDescriptor) :
  let node :=
    MemberExpression r object (BinaryExpression pr operator left_ offset) c o in
  let name := getFullName text object in
  In report
    (visit TypeFlags_String TypeFlags_NumberLike options text typeOf node) ->
  visit TypeFlags_String TypeFlags_NumberLike options text typeOf node
  = [report]
  /\ messageId report = "preferAt"
  /\ data report = [("name", name)]
  /\ host.message meta report
     = Some ("Expected a `" ++ name ++ ".at(-1)` instead of `" ++ name
             ++ "[" ++ name ++ ".length - 1]`.")%string
  /\ fixable meta = Some "code".
Proof.
  intros node name Hin.
  destruct (visit_inv _ _ _ _ _ _ _ Hin)
    as (r' & pr' & lr & object' & lobj & lprop & right_ & op' & c' & o'
        & lc & lo & Hnode & Hcrit & ->).
  unfold node in Hnode.
  injection Hnode as -> -> -> -> -> -> -> ->.
  repeat split. unfold node.
  rewrite visit_candidate. cbv zeta. rewrite Hcrit. reflexivity.
Qed.

Lemma message_names_offset_one_witness :
  exists report,
    Examples.run defaultOptions Examples.s_text
      (Examples.checker Examples.stringType) Examples.s_second_last
    = [report]
    /\ getFullName Examples.s_text Examples.s_two = "2"
    /\ host.message meta report
       = Some "Expected a `s.at(-1)` instead of `s[s.length - 1]`.".
Proof.
  eexists.
  destruct (message_names_offset_one Examples.TypeFlags_String
              Examples.TypeFlags_NumberLike defaultOptions Examples.s_text
              (Examples.checker Examples.stringType)
              (0, 15) (2, 14) Examples.s_outer Examples.s_length
              Examples.s_two "-" true false _ (or_introl eq_refl))
    as (Hone & _ & _ & Hmessage & _).
  split; [exact Hone|]. split; [reflexivity|exact Hmessage].
Defined.

(** C9.  The walk of [ignoreFunctions] follows [object] links only.  When
    the object inside the [.length] access is [a[key]] and [key] is a call
    expression, while no call expression lies on the [object] links, the
    walk finds nothing, and with [ignoreFunctions] on the idiom is still
    reported. *)
Theorem call_in_property_undetected
    (TypeFlags_String TypeFlags_NumberLike : N)
    (text : string) (typeOf : Node -> ts.Type_)
    (r pr lr ir : Range) (X a key lprop N_ : Node)
    (c o lc lo ic io : bool) :
  let inner := MemberExpression ir a key ic io in
  let left_ := MemberExpression lr inner lprop lc lo in
  let node := MemberExpression r X (BinaryExpression pr "-" left_ N_) c o in
  isCallExpression key = true ->
  existsb isCallExpression (object_chain left_) = false ->
  matches_idiom TypeFlags_String TypeFlags_NumberLike text typeOf
    X inner left_ N_ ->
  hasCallExpression left_ = false
  /\ visit TypeFlags_String TypeFlags_NumberLike
       {| ignoreFunctions := true |} text typeOf node
     = [ {| messageId := "preferAt";
            data := [("name", getFullName text X)];
            report_node := node;
            fix_ := {| fix_range := r;
                       fix_text := getFullName text X ++ ".at(-"
                                   ++ getFullName text N_ ++ ")" |} |} ].
Proof.
  intros inner left_ node _ Hchain Hidiom.
  rewrite <- hasCallExpression_object_chain in Hchain.
  split; [exact Hchain|].
  subst node. unfold left_ at 1. rewrite visit_candidate. fold inner left_.
  replace (criteria _ _ _ _ _ _ _ _ _ _) with true; [reflexivity|].
  symmetry. apply criteria_true_iff. rewrite Hchain. auto.
Qed.

Lemma call_in_property_undetected_witness :
  hasCallExpression Examples.af_length = false
  /\ Examples.run Examples.enabled Examples.af_text
       (Examples.checker Examples.arrayType) Examples.af_last
     = [ {| messageId := "preferAt";
            data := [("name", "a[f()]")];
            report_node := Examples.af_last;
            fix_ := {| fix_range := (0, 25);
                       fix_text := "a[f()].at(-1)" |} |} ].
Proof.
  apply (call_in_property_undetected Examples.TypeFlags_String
           Examples.TypeFlags_NumberLike Examples.af_text
           (Examples.checker Examples.arrayType)
           (0, 25) (7, 24) (7, 20) (7, 13) Examples.af_outer
           (Identifier (7, 8) "a") Examples.af_key
           (Identifier (14, 20) "length") Examples.af_one
           true false false false true false).
  - reflexivity.
  - reflexivity.
  - idiom_by_evaluation.
Defined.

(** ** The checker is asked about the inner occurrence only *)

Lemma visit_left_not_member
    (TypeFlags_String TypeFlags_NumberLike : N) (options : Options)
    (text : string) (typeOf : Node -> ts.Type_)
    (r pr : Range) (object left_ right_ : Node) (operator : string)
    (c o : bool) :
  node_type left_ <> T_MemberExpression ->
  visit TypeFlags_String TypeFlags_NumberLike options text typeOf
    (MemberExpression r object
       (BinaryExpression pr operator left_ right_) c o)
  = [].
Proof.
  intros Hkind.
  destruct (visit _ _ _ _ _ _) as [|report rest] eqn:E; [reflexivity|].
  assert (Hin : In report
                  (visit TypeFlags_String TypeFlags_NumberLike options text
                     typeOf
                     (MemberExpression r object
                        (BinaryExpression pr operator left_ right_) c o)))
    by (rewrite E; left; reflexivity).
  apply visit_inv in Hin
    as (r' & pr' & lr & object' & lobj & lprop & right' & op' & c' & o'
        & lc & lo & Hnode & _).
  injection Hnode as _ _ _ _ -> _ _ _. contradiction Hkind. reflexivity.
Qed.

(** Two checkers that agree on the inner nodes of a candidate lead to the
    same reports. *)
Lemma visit_ext
    (TypeFlags_String TypeFlags_NumberLike : N) (options : Options)
    (text : string) (typeOf typeOf' : Node -> ts.Type_) (node : Node) :
  (forall n, In n (inner_nodes node) -> typeOf n = typeOf' n) ->
  visit TypeFlags_String TypeFlags_NumberLike options text typeOf node
  = visit TypeFlags_String TypeFlags_NumberLike options text typeOf' node.
Proof.
  intros Hagree.
  destruct node as [ | | r object property c o | | | | ]; try reflexivity.
  destruct property as [ | | | | pr operator left_ right_ | | ];
    try reflexivity.
  destruct left_ as [ | | lr left_object lprop lc lo | | | | ];
    try (rewrite !visit_left_not_member by discriminate; reflexivity).
  rewrite !visit_candidate. unfold criteria.
  rewrite <- !Hagree by (simpl; auto). reflexivity.
Qed.

Lemma well_spanned_nonempty (node : Node) :
  well_spanned node = true -> fst (node_range node) < snd (node_range node).
Proof.
  intros H. apply Nat.ltb_lt.
  destruct node; simpl in H; apply andb_true_iff in H; apply H.
Qed.

Lemma span_within_start (inner outer : Range) :
  span_within inner outer = true -> fst outer <= fst inner.
Proof.
  unfold span_within. rewrite andb_true_iff, !Nat.leb_le. tauto.
Qed.

(** In a tree laid out as the parser does, the indexed object starts
    before every node of the property. *)
Lemma outer_object_starts_first
    (r : Range) (object property : Node) (c o : bool) (n : Node) :
  well_spanned (MemberExpression r object property c o) = true ->
  In n (inner_nodes (MemberExpression r object property c o)) ->
  fst (node_range object) < fst (node_range n).
Proof.
  intros Hwf Hin. cbn [well_spanned node_range] in Hwf.
  rewrite !andb_true_iff in Hwf.
  destruct Hwf as (_ & (((_ & _) & Hbefore) & Hobject) & Hproperty).
  apply well_spanned_nonempty in Hobject.
  unfold span_before in Hbefore. apply Nat.leb_le in Hbefore.
  destruct property as [ | | | | pr operator left_ right_ | | ];
    try contradiction.
  cbn [well_spanned node_range] in Hproperty, Hbefore.
  rewrite !andb_true_iff in Hproperty.
  destruct Hproperty as (_ & (((Hleft & Hright) & _) & Hleft_wf) & _).
  apply span_within_start in Hleft, Hright.
  cbn [inner_nodes] in Hin.
  destruct Hin as [<-|[<-|Hin]]; [lia|lia|].
  destruct left_ as [ | | lr left_object lprop lc lo | | | | ];
    try contradiction.
  destruct Hin as [<-|[]].
  cbn [well_spanned node_range] in Hleft_wf, Hleft.
  rewrite !andb_true_iff in Hleft_wf.
  destruct Hleft_wf as (_ & (((Hinner & _) & _) & _) & _).
  apply span_within_start in Hinner. lia.
Qed.

(** C10.  The types that decide a match are those of the offset, of the
    [.length] access and of the object inside it, never that of the indexed
    object: two checkers that agree on every node but the indexed object
    lead to the same reports, with the same messages and fixes. *)
Theorem outer_object_type_irrelevant
    (TypeFlags_String TypeFlags_NumberLike : N) (options : Options)
    (text : string) (typeOf typeOf' : Node -> ts.Type_)
    (r : Range) (object property : Node) (c o : bool) :
  let node := MemberExpression r object property c o in
  well_spanned node = true ->
  (forall n, n <> object -> typeOf n = typeOf' n) ->
  visit TypeFlags_String TypeFlags_NumberLike options text typeOf node
  = visit TypeFlags_String TypeFlags_NumberLike options text typeOf' node.
Proof.
  intros node Hwf Hagree. apply visit_ext. intros n Hin.
  apply Hagree. intros ->.
  pose proof (outer_object_starts_first _ _ _ _ _ _ Hwf Hin). lia.
Qed.

Lemma other_checker_agrees (n : Node) :
  n <> Examples.arr_outer ->
  Examples.checker Examples.arrayType n = Examples.other_checker n.
Proof.
  intros Hn. destruct n as [[a b] name| | | | | | ]; try reflexivity.
  unfold Examples.other_checker.
  destruct a as [|a]; [|reflexivity].
  destruct b as [|[|[|[|b]]]]; try reflexivity.
  destruct (String.eqb_spec name "arr") as [->|_]; [|reflexivity].
  contradiction Hn. reflexivity.
Qed.

Lemma outer_object_type_irrelevant_witness :
  Examples.checker Examples.arrayType Examples.arr_outer
  <> Examples.other_checker Examples.arr_outer
  /\ Examples.run defaultOptions Examples.arr_text
       (Examples.checker Examples.arrayType) Examples.arr_last
     = Examples.run defaultOptions Examples.arr_text
         Examples.other_checker Examples.arr_last.
Proof.
  split; [discriminate|].
  apply (outer_object_type_irrelevant Examples.TypeFlags_String
           Examples.TypeFlags_NumberLike defaultOptions Examples.arr_text
           (Examples.checker Examples.arrayType) Examples.other_checker
           (0, 19) Examples.arr_outer
           (BinaryExpression (4, 18) "-" Examples.arr_length
              Examples.arr_one) true false).
  - reflexivity.
  - exact other_checker_agrees.
Defined.

(** * Further properties of the rule *)

(** ** When a node is reported *)

(** X1.  A visit reports exactly the idiom: a report comes from a member
    access whose property is a subtraction with a member access on its left,
    that meets every criterion on names, texts and types and passes the
    guard of [ignoreFunctions]; and every such node is reported. *)
Theorem report_iff_idiom
    (TypeFlags_String TypeFlags_NumberLike : N) (options : Options)
    (text : string) (typeOf : Node -> ts.Type_)
    (node : Node) (report : ReportDescriptor) :
  In report
    (visit TypeFlags_String TypeFlags_NumberLike options text typeOf node)
  <-> exists r pr lr X X' lprop N_ c o lc lo,
        let left_ := MemberExpression lr X' lprop lc lo in
        node = MemberExpression r X (BinaryExpression pr "-" left_ N_) c o
        /\ (ignoreFunctions options = true -> hasCallExpression left_ = false)
        /\ matches_idiom TypeFlags_String TypeFlags_NumberLike text typeOf
             X X' left_ N_
        /\ report = preferAt_report text node X N_.
Proof.
  split.
  - intros Hin.
    apply visit_inv in Hin
      as (r & pr & lr & X & X' & lprop & N_ & op & c & o & lc & lo
          & Hnode & Hcrit & Hreport).
    apply criteria_true_iff in Hcrit as (-> & Hguard & Hidiom).
    exists r, pr, lr, X, X', lprop, N_, c, o, lc, lo. cbv zeta.
    repeat split; try assumption; try apply Hidiom.
    intros Hon. rewrite Hon in Hguard. exact Hguard.
  - intros (r & pr & lr & X & X' & lprop & N_ & c & o & lc & lo & H).
    cbv zeta in H. destruct H as (-> & Hguard & Hidiom & ->).
    rewrite visit_candidate. cbv zeta.
    replace (criteria _ _ _ _ _ _ _ _ _ _) with true; [left; reflexivity|].
    symmetry. apply criteria_true_iff. repeat split; try apply Hidiom.
    destruct (ignoreFunctions options); [|reflexivity].
    rewrite Hguard; reflexivity.
Qed.

(** X2.  One visit never hands more than one report to the host. *)
Theorem at_most_one_report
    (TypeFlags_String TypeFlags_NumberLike : N) (options : Options)
    (text : string) (typeOf : Node -> ts.Type_) (node : Node) :
  length
    (visit TypeFlags_String TypeFlags_NumberLike options text typeOf node)
  <= 1.
Proof.
  destruct (visit _ _ _ _ _ node) as [|report rest] eqn:E; [simpl; lia|].
  assert (Hin : In report
                  (visit TypeFlags_String TypeFlags_NumberLike options text
                     typeOf node))
    by (rewrite E; left; reflexivity).
  apply visit_inv in Hin
    as (r & pr & lr & X & X' & lprop & N_ & op & c & o & lc & lo
        & -> & _ & _).
  rewrite visit_candidate in E. cbv zeta in E.
  destruct (criteria _ _ _ _ _ _ _ _ _ _); [|discriminate].
  injection E as _ <-. simpl. lia.
Qed.

(** X3.  Only a subtraction is looked at: a member access whose property
    is a binary expression with any other operator is not reported, whatever
    its operands are. *)
Theorem other_operator_unreported
    (TypeFlags_String TypeFlags_NumberLike : N) (options : Options)
    (text : string) (typeOf : Node -> ts.Type_)
    (r pr : Range) (object left_ right_ : Node) (operator : string)
    (c o : bool) :
  operator <> "-" ->
  visit TypeFlags_String TypeFlags_NumberLike options text typeOf
    (MemberExpression r object
       (BinaryExpression pr operator left_ right_) c o)
  = [].
Proof.
  intros Hop. unfold visit, selector.
  destruct (String.eqb_spec operator "-"); [contradiction|reflexivity].
Qed.

Lemma other_operator_unreported_witness :
  Examples.run defaultOptions Examples.plus_text
    (Examples.checker Examples.arrayType) Examples.plus_node
  = [].
Proof.
  apply (other_operator_unreported Examples.TypeFlags_String
           Examples.TypeFlags_NumberLike defaultOptions Examples.plus_text
           (Examples.checker Examples.arrayType)).
  discriminate.
Defined.

(** ** The option [ignoreFunctions] *)

(** X4.  The option only takes reports away: under any options a visit
    either reports nothing or reports what it reports under the default
    options. *)
Theorem ignoreFunctions_only_suppresses
    (TypeFlags_String TypeFlags_NumberLike : N) (options : Options)
    (text : string) (typeOf : Node -> ts.Type_) (node : Node) :
  visit TypeFlags_String TypeFlags_NumberLike options text typeOf node = []
  \/ visit TypeFlags_String TypeFlags_NumberLike options text typeOf node
     = visit TypeFlags_String TypeFlags_NumberLike defaultOptions text
         typeOf node.
Proof.
  destruct (visit _ _ options _ _ node) as [|report rest] eqn:E;
    [left; reflexivity|right].
  assert (Hin : In report
                  (visit TypeFlags_String TypeFlags_NumberLike options text
                     typeOf node))
    by (rewrite E; left; reflexivity).
  apply visit_inv in Hin
    as (r & pr & lr & X & X' & lprop & N_ & op & c & o & lc & lo
        & -> & Hcrit & _).
  rewrite <- E, !visit_candidate. cbv zeta. rewrite Hcrit.
  replace (criteria _ _ defaultOptions _ _ _ _ _ _ _) with true;
    [reflexivity|].
  symmetry. apply criteria_true_iff.
  apply criteria_true_iff in Hcrit as (Hop & _ & Hidiom). auto.
Qed.

(** X5.  When the walk along the [object] links of the left operand meets
    no call expression, the options play no role at all. *)
Theorem options_irrelevant_without_calls
    (TypeFlags_String TypeFlags_NumberLike : N) (options options' : Options)
    (text : string) (typeOf : Node -> ts.Type_)
    (r pr : Range) (object left_ right_ : Node) (operator : string)
    (c o : bool) :
  existsb isCallExpression (object_chain left_) = false ->
  visit TypeFlags_String TypeFlags_NumberLike options text typeOf
    (MemberExpression r object
       (BinaryExpression pr operator left_ right_) c o)
  = visit TypeFlags_String TypeFlags_NumberLike options' text typeOf
      (MemberExpression r object
         (BinaryExpression pr operator left_ right_) c o).
Proof.
  intros Hchain. rewrite <- hasCallExpression_object_chain in Hchain.
  destruct left_ as [ | | lr X' lprop lc lo | | | | ];
    try (rewrite !visit_left_not_member by discriminate; reflexivity).
  rewrite !visit_candidate. cbv zeta. unfold criteria.
  rewrite Hchain, !andb_false_r. reflexivity.
Qed.

Lemma options_irrelevant_without_calls_witness :
  Examples.run Examples.enabled Examples.arr_text
    (Examples.checker Examples.arrayType) Examples.arr_last
  = Examples.run defaultOptions Examples.arr_text
      (Examples.checker Examples.arrayType) Examples.arr_last.
Proof.
  apply (options_irrelevant_without_calls Examples.TypeFlags_String
           Examples.TypeFlags_NumberLike Examples.enabled defaultOptions
           Examples.arr_text (Examples.checker Examples.arrayType)).
  reflexivity.
Defined.

Lemma last_cons (A : Type) (l : list A) (a d : A) :
  last (a :: l) d = last l a.
Proof.
  revert a d. induction l as [|b l IH]; intros a d; [reflexivity|].
  change (last (a :: b :: l) d) with (last (b :: l) d).
  rewrite (IH b d), (IH b a). reflexivity.
Qed.

(** X6.  Of a member access, the walk of [hasCallExpression] finds a call
    exactly when the [object] links end in a call expression: it goes
    through member accesses only, and the node it stops at decides. *)
Theorem hasCallExpression_chain_end (node : Node) :
  node_type node = T_MemberExpression ->
  hasCallExpression node = isCallExpression (last (object_chain node) node).
Proof.
  induction node as [ | | r object IHo property _ c o | | | | ];
    try discriminate.
  intros _. cbn [object_chain]. rewrite last_cons.
  destruct object; try reflexivity.
  apply IHo. reflexivity.
Qed.

Lemma hasCallExpression_chain_end_witness :
  last (object_chain Examples.deep_call) Examples.deep_call
  = CallExpression (0, 3) (Identifier (0, 1) "f") []
  /\ hasCallExpression Examples.deep_call = true.
Proof.
  split; [reflexivity|].
  rewrite (hasCallExpression_chain_end Examples.deep_call eq_refl).
  reflexivity.
Defined.

(** X7.  A call under a node that is no member access is out of the
    walk's reach: when the object inside the [.length] access is neither a
    member access nor a call expression itself -- a non-null assertion over
    a call, say -- the idiom is reported even with [ignoreFunctions] on. *)
Theorem wrapped_call_undetected
    (TypeFlags_String TypeFlags_NumberLike : N)
    (text : string) (typeOf : Node -> ts.Type_)
    (r pr lr : Range) (X X' lprop N_ : Node) (c o lc lo : bool) :
  let left_ := MemberExpression lr X' lprop lc lo in
  let node := MemberExpression r X (BinaryExpression pr "-" left_ N_) c o in
  node_type X' <> T_MemberExpression ->
  node_type X' <> T_CallExpression ->
  matches_idiom TypeFlags_String TypeFlags_NumberLike text typeOf
    X X' left_ N_ ->
  visit TypeFlags_String TypeFlags_NumberLike
    {| ignoreFunctions := true |} text typeOf node
  = [preferAt_report text node X N_].
Proof.
  intros left_ node Hmember Hcall Hidiom.
  subst node. unfold left_ at 1. rewrite visit_candidate. fold left_.
  replace (criteria _ _ _ _ _ _ _ _ _ _) with true; [reflexivity|].
  symmetry. apply criteria_true_iff. repeat split; try apply Hidiom.
  destruct X'; try reflexivity; [contradiction Hmember|contradiction Hcall];
    reflexivity.
Qed.

Lemma wrapped_call_undetected_witness :
  Examples.run Examples.enabled Examples.bang_text
    (Examples.checker Examples.arrayType) Examples.bang_node
  = [ {| messageId := "preferAt";
         data := [("name", "f()!")];
         report_node := Examples.bang_node;
         fix_ := {| fix_range := (0, 21); fix_text := "f()!.at(-1)" |} |} ].
Proof.
  apply (wrapped_call_undetected Examples.TypeFlags_String
           Examples.TypeFlags_NumberLike Examples.bang_text
           (Examples.checker Examples.arrayType)
           (0, 21) (5, 20) (5, 16) Examples.bang_outer Examples.bang_inner
           (Identifier (10, 16) "length") Examples.bang_one true false
           false false).
  - discriminate.
  - discriminate.
  - idiom_by_evaluation.
Defined.

(** ** The name of the left operand *)

(** X8.  The left operand has to be named [length]: when [getName] finds
    another name, or none -- as for a key written as a string -- nothing is
    reported. *)
Theorem not_length_unreported
    (TypeFlags_String TypeFlags_NumberLike : N) (options : Options)
    (text : string) (typeOf : Node -> ts.Type_)
    (r pr lr : Range) (X X' lprop N_ : Node) (operator : string)
    (c o lc lo : bool) :
  getName lprop <> Some "length" ->
  visit TypeFlags_String TypeFlags_NumberLike options text typeOf
    (MemberExpression r X
       (BinaryExpression pr operator
          (MemberExpression lr X' lprop lc lo) N_) c o)
  = [].
Proof.
  intros Hname. rewrite visit_candidate.
  destruct (criteria _ _ _ _ _ _ _ _ _ _) eqn:E; [|reflexivity].
  apply criteria_true_iff in E as (_ & _ & Hlength & _). contradiction.
Qed.

Lemma not_length_unreported_witness :
  Examples.run defaultOptions Examples.quoted_text
    (Examples.checker Examples.arrayType) Examples.quoted_node
  = [].
Proof.
  apply (not_length_unreported Examples.TypeFlags_String
           Examples.TypeFlags_NumberLike defaultOptions Examples.quoted_text
           (Examples.checker Examples.arrayType)).
  discriminate.
Defined.

(** X9.  [getName] reads the name off the end of the properties of the
    left operand, so a computed access [X[Y.length]], which indexes [X] by
    the length of some [Y], passes for the length of [X]: when the other
    criteria hold, [X[X[Y.length] - N]] is reported and its fix is
    [X.at(-N)]. *)
Theorem nested_length_key_reported
    (TypeFlags_String TypeFlags_NumberLike : N) (options : Options)
    (text : string) (typeOf : Node -> ts.Type_)
    (r pr lr kr ir : Range) (X X' Y N_ : Node)
    (c o lc lo kc ko : bool) :
  let key := MemberExpression kr Y (Identifier ir "length") kc ko in
  let left_ := MemberExpression lr X' key lc lo in
  let node := MemberExpression r X (BinaryExpression pr "-" left_ N_) c o in
  getFullName text X = getFullName text X' ->
  allow_listed TypeFlags_String (typeOf X') ->
  exposes_at (typeOf X') ->
  numeric_like TypeFlags_NumberLike (typeOf left_) ->
  numeric_like TypeFlags_NumberLike (typeOf N_) ->
  (ignoreFunctions options = true -> hasCallExpression left_ = false) ->
  visit TypeFlags_String TypeFlags_NumberLike options text typeOf node
  = [ {| messageId := "preferAt";
         data := [("name", getFullName text X)];
         report_node := node;
         fix_ := {| fix_range := r;
                    fix_text := getFullName text X ++ ".at(-"
                                ++ getFullName text N_ ++ ")" |} |} ].
Proof.
  intros key left_ node Htext Hallow Hat Hleft Hright Hguard.
  subst node. unfold left_ at 1. rewrite visit_candidate. fold key left_.
  replace (criteria _ _ _ _ _ _ _ _ _ _) with true; [reflexivity|].
  symmetry. apply criteria_true_iff. repeat split; try assumption.
  destruct (ignoreFunctions options); [|reflexivity].
  rewrite Hguard; reflexivity.
Qed.

Lemma nested_length_key_reported_witness :
  getFullName Examples.nested_text Examples.nested_left = "arr[foo.length]"
  /\ Examples.run defaultOptions Examples.nested_text
       (Examples.checker Examples.arrayType) Examples.nested_node
     = [ {| messageId := "preferAt";
            data := [("name", "arr")];
            report_node := Examples.nested_node;
            fix_ := {| fix_range := (0, 24); fix_text := "arr.at(-1)" |} |} ].
Proof.
  split; [reflexivity|].
  apply (nested_length_key_reported Examples.TypeFlags_String
           Examples.TypeFlags_NumberLike defaultOptions Examples.nested_text
           (Examples.checker Examples.arrayType)
           (0, 24) (4, 23) (4, 19) (8, 18) (12, 18)
           Examples.arr_outer Examples.arr_inner (Identifier (8, 11) "foo")
           Examples.nested_one true false true false false false).
  - reflexivity.
  - apply isSupportedObject_allow_listed. reflexivity.
  - unfold exposes_at. simpl. discriminate.
  - reflexivity.
  - reflexivity.
  - discriminate.
Defined.

(** ** What the listener does not read *)

(** X10.  The listener reads neither [computed] nor [optional] of the node
    it visits: the message and the fix are the same for [X[...]] and for an
    optional [X?.[...]], whose fix is thus [X.at(-N)] as well. *)
Theorem outer_flags_irrelevant
    (TypeFlags_String TypeFlags_NumberLike : N) (options : Options)
    (text : string) (typeOf : Node -> ts.Type_)
    (r : Range) (object property : Node) (c o c' o' : bool) :
  map (fun report => (messageId report, data report, fix_ report))
    (visit TypeFlags_String TypeFlags_NumberLike options text typeOf
       (MemberExpression r object property c o))
  = map (fun report => (messageId report, data report, fix_ report))
      (visit TypeFlags_String TypeFlags_NumberLike options text typeOf
         (MemberExpression r object property c' o')).
Proof.
  destruct property as [ | | | | pr operator left_ right_ | | ];
    try reflexivity.
  destruct left_ as [ | | lr X' lprop lc lo | | | | ];
    try (rewrite !visit_left_not_member by discriminate; reflexivity).
  rewrite !visit_candidate. cbv zeta.
  destruct (criteria _ _ _ _ _ _ _ _ _ _); reflexivity.
Qed.

(** ** The source text of a node *)

Lemma string_length_app (a b : string) :
  String.length (a ++ b) = String.length a + String.length b.
Proof. induction a as [|ch a IH]; simpl; [reflexivity|]. now rewrite IH. Qed.

Lemma substring_prefix (body post : string) :
  substring 0 (String.length body) (body ++ post) = body.
Proof.
  induction body as [|ch body IH]; simpl.
  - destruct post; reflexivity.
  - now rewrite IH.
Qed.

Lemma substring_skip (pre rest : string) (m : nat) :
  substring (String.length pre) m (pre ++ rest) = substring 0 m rest.
Proof. induction pre as [|ch pre IH]; simpl; [reflexivity|exact IH]. Qed.

Lemma substring_length (s : string) (n m : nat) :
  String.length (substring n m s) = Nat.min m (String.length s - n).
Proof.
  revert n m. induction s as [|ch s IH]; intros n m.
  - destruct n, m; reflexivity.
  - destruct n as [|n]; simpl.
    + destruct m as [|m]; simpl; [reflexivity|].
      rewrite IH. now rewrite Nat.sub_0_r.
    + apply IH.
Qed.

(** X11.  [getFullName] gives back the text a node spans, as it stands:
    in a text made of what precedes the node, what the node covers and what
    follows, the result is the part covered. *)
Theorem getFullName_verbatim (pre body post : string) (node : Node) :
  node_range node
  = (String.length pre, String.length pre + String.length body) ->
  getFullName (pre ++ body ++ post) node = body.
Proof.
  intros Hrange. unfold getFullName, slice. rewrite Hrange. cbn [fst snd].
  rewrite !string_length_app.
  rewrite !Nat.min_l by lia.
  replace (String.length pre + String.length body - String.length pre)
    with (String.length body) by lia.
  rewrite substring_skip. apply substring_prefix.
Qed.

Lemma getFullName_verbatim_witness :
  getFullName Examples.arr_text Examples.arr_length = "arr.length".
Proof.
  apply (getFullName_verbatim "arr[" "arr.length" " - 1]"
           Examples.arr_length).
  reflexivity.
Defined.

(** X12.  The text of a node is cut to the source text: its length is the
    distance between the two ends of the span, each moved back to the end of
    the text when it lies beyond -- hence the empty string for a span that
    starts outside the text or ends before it starts. *)
Theorem getFullName_length (text : string) (node : Node) :
  String.length (getFullName text node)
  = Nat.min (snd (node_range node)) (String.length text)
    - Nat.min (fst (node_range node)) (String.length text).
Proof.
  unfold getFullName, slice. rewrite substring_length. lia.
Qed.

(** ** The allow-list *)

Lemma existsb_permutation (A : Type) (f : A -> bool) (l l' : list A) :
  Permutation.Permutation l l' -> existsb f l = existsb f l'.
Proof.
  induction 1 as [ | x l l' _ IH | x y l | l l' l'' _ IH1 _ IH2 ]; simpl.
  - reflexivity.
  - now rewrite IH.
  - destruct (f x), (f y); reflexivity.
  - now rewrite IH1.
Qed.

(** X13.  The order of the allow-list has no effect: the checks taken in
    any other order accept the same types. *)
Theorem supporterObjects_order_irrelevant
    (TypeFlags_String : N) (checks : list SupportedObject)
    (type : ts.Type_) :
  Permutation.Permutation checks (supporterObjects TypeFlags_String) ->
  existsb (fun check => check type) checks
  = isSupportedObject TypeFlags_String type.
Proof.
  intros Hperm. unfold isSupportedObject. now apply existsb_permutation.
Qed.

Lemma supporterObjects_order_irrelevant_witness :
  existsb (fun check => check Examples.stringType)
    (rev (supporterObjects Examples.TypeFlags_String))
  = isSupportedObject Examples.TypeFlags_String Examples.stringType.
Proof.
  apply (supporterObjects_order_irrelevant Examples.TypeFlags_String
           (rev (supporterObjects Examples.TypeFlags_String))
           Examples.stringType).
  apply Permutation.Permutation_sym, Permutation.Permutation_rev.
Defined.

(** X14.  The string check compares the flags as a whole: an object whose
    type has no symbol is reported only when its flags are exactly those of
    [string], so the type of a string literal, with a flag of its own, is
    passed over. *)
Theorem inexact_string_flags_unreported
    (TypeFlags_String TypeFlags_NumberLike : N) (options : Options)
    (text : string) (typeOf : Node -> ts.Type_)
    (r pr lr : Range) (X X' lprop N_ : Node) (operator : string)
    (c o lc lo : bool) :
  ts.getSymbol (typeOf X') = None ->
  ts.getFlags (typeOf X') <> TypeFlags_String ->
  visit TypeFlags_String TypeFlags_NumberLike options text typeOf
    (MemberExpression r X
       (BinaryExpression pr operator
          (MemberExpression lr X' lprop lc lo) N_) c o)
  = [].
Proof.
  intros Hsymbol Hflags. rewrite visit_candidate.
  destruct (criteria _ _ _ _ _ _ _ _ _ _) eqn:E; [|reflexivity].
  apply criteria_true_iff in E as (_ & _ & _ & _ & Hallow & _).
  destruct Hallow as [(symbol & Hsome & _)|Heq]; [congruence|contradiction].
Qed.

Lemma inexact_string_flags_unreported_witness :
  Examples.run defaultOptions Examples.s_text
    (Examples.checker Examples.stringLiteralType) Examples.s_second_last
  = [].
Proof.
  apply (inexact_string_flags_unreported Examples.TypeFlags_String
           Examples.TypeFlags_NumberLike defaultOptions Examples.s_text
           (Examples.checker Examples.stringLiteralType)).
  - reflexivity.
  - discriminate.
Defined.

(** ** The numeric checks *)

(** X15.  Both operands of the subtraction have to be numeric-like: when
    the type of the left operand or that of the offset shares no flag with
    [NumberLike], nothing is reported. *)
Theorem non_numeric_operand_unreported
    (TypeFlags_String TypeFlags_NumberLike : N) (options : Options)
    (text : string) (typeOf : Node -> ts.Type_)
    (r pr : Range) (object left_ right_ : Node) (operator : string)
    (c o : bool) :
  N.land (ts.getFlags (typeOf left_)) TypeFlags_NumberLike = 0%N
  \/ N.land (ts.getFlags (typeOf right_)) TypeFlags_NumberLike = 0%N ->
  visit TypeFlags_String TypeFlags_NumberLike options text typeOf
    (MemberExpression r object
       (BinaryExpression pr operator left_ right_) c o)
  = [].
Proof.
  intros Hflags.
  destruct left_ as [ | | lr X' lprop lc lo | | | | ];
    try (apply visit_left_not_member; discriminate).
  rewrite visit_candidate. cbv zeta.
  destruct (criteria _ _ _ _ _ _ _ _ _ _) eqn:E; [|reflexivity].
  apply criteria_true_iff in E as (_ & _ & _ & _ & _ & _ & Hleft & Hright).
  unfold numeric_like, tsutils.isTypeFlagSet in Hleft, Hright.
  destruct Hflags as [H|H]; rewrite H in *; discriminate.
Qed.

Lemma non_numeric_operand_unreported_witness :
  Examples.run defaultOptions Examples.xs_text
    (Examples.checker Examples.arrayType) Examples.xs_node
  = [].
Proof.
  apply (non_numeric_operand_unreported Examples.TypeFlags_String
           Examples.TypeFlags_NumberLike defaultOptions Examples.xs_text
           (Examples.checker Examples.arrayType)).
  right. reflexivity.
Defined.
